(** * The sample analysis domain: Provider, Calculator and boundary adapter

    A shallow embedding of

    - [server/app/examples/sample_domain/calculators/__init__.py]
      ([SampleAnalysisCalculator]),
    - [server/app/examples/sample_domain/providers/__init__.py]
      ([SampleDataProvider]),
    - [server/app/api/v1/endpoints/sample.py] ([analyze_data]) and
    - [server/main.py] ([application_exception_handler]).

    Python floats are IEEE 754 binary64 numbers, so they are Rocq's primitive
    floats; a [dict] with string keys is a [gmap string _]; a method that may
    raise is a computation in the monad [py] below, and [try]/[except] is
    [try_except]. *)

From stdpp Require Import base option list strings gmap.
From Stdlib Require Import ZArith Floats DecimalString.

Set Warnings "-inexact-float,-register-all".
Set Default Proof Using "Type".

Open Scope string_scope.
Open Scope list_scope.
Open Scope Z_scope.

(** ** Python values and built-in operations *)

Module Py.

(** The values that end up in a detail map ([dict[str, Any]]). *)
Inductive value : Type :=
| VNone
| VInt (z : Z)
| VFloat (x : float)
| VStr (s : string)
| VDict (d : gmap string value).

(** A dict display [{k1: v1, k2: v2, ...}]: the keys are inserted from left to
    right, a later key replacing an equal earlier one. *)
Definition dict {V} (items : list (string * V)) : gmap string V :=
  foldl (fun d kv => <[kv.1 := kv.2]> d) ∅ items.

(** [bool(x)] of a float: every float but the two zeros is true (a NaN is). *)
Definition truthy (x : float) : bool := negb (x =? 0)%float.

(** [bool(o)] of an [Optional[float]]: [None] is false. *)
Definition truthy_opt (o : option float) : bool :=
  match o with
  | None => false
  | Some x => truthy x
  end.

(** [o or d] where [o] is an [Optional[float]]: [o] when it is true, else
    [d].  The two arms may have any type ([score or 'N/A'] is a float or a
    string), so the caller says what to do with a true [o]. *)
Definition or_else {A} (o : option float) (k : float -> A) (d : A) : A :=
  match o with
  | Some x => if truthy x then k x else d
  | None => d
  end.

(** [str(n)] of an [int]. *)
Definition str_int (n : Z) : string := NilZero.string_of_int (Z.to_int n).

(** A finite float is [m * 2 ^ e] for integers [m] and [e].
    [scale100 m e] is [100 * m * 2 ^ e] rounded to the nearest integer, ties
    to even: the rounding of the [.2f] format. *)
Definition scale100 (m : positive) (e : Z) : Z :=
  let n := 100 * Z.pos m in
  if 0 <=? e then n * 2 ^ e
  else
    let d := 2 ^ (- e) in
    let q := n / d in
    let r := n mod d in
    if (d <? 2 * r) || ((d =? 2 * r) && Z.odd q) then q + 1 else q.

Definition two_digits (n : Z) : string :=
  (if n <? 10 then "0" else EmptyString) +:+ str_int n.

(** The digits of [q / 100] with two decimals, for [0 <= q]. *)
Definition fixed2 (q : Z) : string :=
  str_int (q / 100) +:+ "." +:+ two_digits (q mod 100).

Definition sign_prefix (s : bool) : string :=
  if s then "-" else EmptyString.

(** [format(x, ".2f")]. *)
Definition format_2f (x : float) : string :=
  match Prim2SF x with
  | S754_nan => "nan"
  | S754_infinity s => sign_prefix s +:+ "inf"
  | S754_zero s => sign_prefix s +:+ "0.00"
  | S754_finite s m e => sign_prefix s +:+ fixed2 (scale100 m e)
  end.

(** [x == y] of two [str]. *)
Definition str_eqb (s t : string) : bool := bool_decide (s = t).

(** [o == lit] where [o] is an [Optional[str]] and [lit] a string literal. *)
Definition opt_str_eqb (o : option string) (lit : string) : bool :=
  match o with
  | None => false
  | Some s => str_eqb s lit
  end.

Definition of_opt_str (o : option string) : value :=
  match o with
  | None => VNone
  | Some s => VStr s
  end.

End Py.

(** ** The exception taxonomy *)

(** Modelled from the spec: [server.app.shared.exceptions] is not among the
    sources.  Section 4.2 of the specification: each kind is a distinct
    variant carrying a message and a detail map; a class built with a message
    only has the empty detail map.  [Builtin name] stands for the exceptions
    of Python itself ([OverflowError], ...), which are [Exception]s outside
    the taxonomy. *)
Inductive exn_class : Type :=
| NotFoundException
| ValidationException
| ProviderException
| CalculatorException
| ApplicationException
| Builtin (name : string).

#[global] Instance exn_class_eq_dec : EqDecision exn_class.
Proof. solve_decision. Defined.

Record exn : Type := Exn {
  exn_cls : exn_class;
  message : string;
  details : gmap string Py.value;
}.

(** [str(e)]: the message the exception was built with. *)
Definition str_exn (e : exn) : string := message e.

(** [isinstance(e, NotFoundException)], the test of [except NotFoundException]. *)
Definition is_not_found (e : exn) : bool :=
  bool_decide (exn_cls e = NotFoundException).

(** ** Computations that return or raise *)

Inductive py (A : Type) : Type :=
| Return (a : A)
| Raise (e : exn).
Arguments Return {A} a.
Arguments Raise {A} e.

#[global] Instance py_ret : MRet py := fun _ a => Return a.
#[global] Instance py_bind : MBind py := fun _ _ f m =>
  match m with
  | Return a => f a
  | Raise e => Raise e
  end.
#[global] Instance py_fmap : FMap py := fun _ _ f m =>
  match m with
  | Return a => Return (f a)
  | Raise e => Raise e
  end.

(** [try: body  except Exception as e: handler(e)]. *)
Definition try_except {A} (body : py A) (handler : exn -> py A) : py A :=
  match body with
  | Return a => Return a
  | Raise e => handler e
  end.

Definition raises {A} (m : py A) : Prop := exists e, m = Raise e.
Definition returns {A} (m : py A) : Prop := exists a, m = Return a.

(** [x ** 2] of a float, as CPython's [float_pow] computes it for the
    exponent 2.0.  A NaN is returned as it is, an infinity as the positive
    infinity, a zero as 0.0 and plus or minus one as 1.0, all without calling
    the C library; for any other [x] the result is C's [pow(|x|, 2.0)], the
    parameter [c_pow2]: the C library rounds it as it sees fit, so it need
    not be the correctly rounded square.  [pow] overflows, and [float_pow]
    then raises [OverflowError], exactly when the rounded square of the
    finite [x] is out of range (from 2 ^ 512 on); underflow to zero is not an
    error. *)
Definition float_pow2 (c_pow2 : float -> float) (x : float) : py float :=
  if PrimFloat.is_finite x && PrimFloat.is_infinity (x * x)%float
  then Raise (Exn (Builtin "OverflowError")
                  "(34, 'Numerical result out of range')" ∅)
  else
    Return (if PrimFloat.is_nan x then x
            else if PrimFloat.is_infinity x then PrimFloat.abs x
            else if (x =? 0)%float then 0.0%float
            else if (PrimFloat.abs x =? 1)%float then 1.0%float
            else c_pow2 (PrimFloat.abs x)).

(** ** calculators/__init__.py *)

Module Calculators.

(** Modelled from the spec: the schema classes
    ([server.app.examples.sample_domain.schemas]) are not among the sources.
    The fields are those the calculator reads; section 3 of the specification
    makes the score and the threshold optional, and the analysis kind may be
    absent. *)
Record SampleCalculatorInput : Type := {
  value : float;
  score : option float;
  threshold : option float;
  analysis_type : option string;
}.

Record SampleCalculatorOutput : Type := {
  metrics : gmap string float;
  insights : list string;
}.

(** [d[k]] of a metrics dict; a missing key raises [KeyError]. *)
Definition getitem (d : gmap string float) (k : string) : py float :=
  match d !! k with
  | Some x => Return x
  | None => Raise (Exn (Builtin "KeyError") ("'" +:+ k +:+ "'") ∅)
  end.

Section SampleAnalysisCalculator.

(** [str(x)] of a float (the shortest decimal that reads back as [x]) is
    Python's own; the calculator only splices it into two insights. *)
Variable float_str : float -> string.

(** [validate_output] is inherited from [BaseCalculator]
    ([server.app.shared.base]), which is not among the sources. *)
Variable validate_output : SampleCalculatorOutput -> py unit.

(** C's [pow(x, 2.0)], from the C library the interpreter is linked with. *)
Variable c_pow2 : float -> float.

Definition validate_input (input_data : SampleCalculatorInput) : py unit :=
  if (value input_data <? 0)%float
  then Raise (Exn CalculatorException "Value must be non-negative" ∅)
  else
    match score input_data with
    | Some s =>
        if negb ((0 <=? s)%float && (s <=? 1)%float)
        then Raise (Exn CalculatorException "Score must be between 0 and 1" ∅)
        else Return tt
    | None => Return tt
    end.

Definition _statistical_analysis (input_data : SampleCalculatorInput)
  : py (gmap string float * list string) :=
  variance ← float_pow2 c_pow2 (value input_data * 0.1)%float;
  let metrics := Py.dict [
    ("mean", value input_data);
    ("median", (value input_data * 0.95)%float);
    ("std_dev", (value input_data * 0.1)%float);
    ("variance", variance)
  ] in
  mean ← getitem metrics "mean";
  let insights := [
    "데이터가 정규 분포를 따릅니다";
    "평균값은 " +:+ Py.format_2f mean +:+ "입니다"
  ] in
  (* [if threshold and score:] is true only when both are present and true,
     so the comparison below it always has two floats. *)
  let insights :=
    match threshold input_data, score input_data with
    | Some t, Some s =>
        if Py.truthy t && Py.truthy s then
          if (t <? s)%float then
            insights ++ [
              "점수(" +:+ Py.format_2f s +:+ ")가 임계값(" +:+ Py.format_2f t
              +:+ ")을 초과합니다"
            ]
          else insights
        else insights
    | _, _ => insights
    end in
  Return (metrics, insights).

Definition _trend_analysis (input_data : SampleCalculatorInput)
  : py (gmap string float * list string) :=
  let metrics := Py.dict [
    ("trend_direction", 1.0%float);
    ("trend_strength", 0.7%float);
    ("change_rate", 0.05%float)
  ] in
  let insights := [
    "상승 트렌드가 관찰됩니다";
    "트렌드 강도는 중간 수준입니다"
  ] in
  Return (metrics, insights).

(** [score and score < 0.3], as the condition of the [if]. *)
Definition anomaly_flag (input_data : SampleCalculatorInput) : bool :=
  match score input_data with
  | Some s => Py.truthy s && (s <? 0.3)%float
  | None => false
  end.

Definition _anomaly_detection (input_data : SampleCalculatorInput)
  : py (gmap string float * list string) :=
  let is_anomaly := anomaly_flag input_data in
  let metrics := Py.dict [
    ("anomaly_score", if is_anomaly then 0.2%float else 0.8%float);
    ("is_anomaly", if is_anomaly then 1.0%float else 0.0%float);
    ("confidence", 0.85%float)
  ] in
  let insights :=
    if is_anomaly
    then [] ++ ["이상치가 감지되었습니다"] ++ ["추가 검토가 필요합니다"]
    else [] ++ ["정상 범위 내의 데이터입니다"] in
  Return (metrics, insights).

Definition _default_analysis (input_data : SampleCalculatorInput)
  : py (gmap string float * list string) :=
  let metrics := Py.dict [
    ("value", value input_data);
    ("score", Py.or_else (score input_data) id 0.0%float)
  ] in
  let insights := [
    "값: " +:+ float_str (value input_data);
    "점수: " +:+ Py.or_else (score input_data) float_str "N/A"
  ] in
  Return (metrics, insights).

(** The [try] block of [calculate]. *)
Definition calculate_body (input_data : SampleCalculatorInput)
  : py SampleCalculatorOutput :=
  validate_input input_data;;
  '(metrics, insights) ←
    (if Py.opt_str_eqb (analysis_type input_data) "statistical"
     then _statistical_analysis input_data
     else if Py.opt_str_eqb (analysis_type input_data) "trend"
     then _trend_analysis input_data
     else if Py.opt_str_eqb (analysis_type input_data) "anomaly"
     then _anomaly_detection input_data
     else _default_analysis input_data);
  let output := {| metrics := metrics; insights := insights |} in
  validate_output output;;
  Return output.

(** The [except Exception as e] clause of [calculate]. *)
Definition calculate_handler (input_data : SampleCalculatorInput) (e : exn)
  : py SampleCalculatorOutput :=
  Raise (Exn CalculatorException
             ("Analysis calculation failed: " +:+ str_exn e)
             (Py.dict [("analysis_type",
                        Py.of_opt_str (analysis_type input_data))])).

Definition calculate (input_data : SampleCalculatorInput)
  : py SampleCalculatorOutput :=
  try_except (calculate_body input_data) (calculate_handler input_data).

End SampleAnalysisCalculator.

(** The condition under which the threshold insight is appended:
    [if threshold and score:] and then [if score > threshold:]. *)
Definition threshold_insight_due (input_data : SampleCalculatorInput) : bool :=
  match threshold input_data, score input_data with
  | Some t, Some s => Py.truthy t && Py.truthy s && (t <? s)%float
  | _, _ => false
  end.

(** [SampleScoreCalculator]: the calculator holds the weights it was built
    with. *)
Module SampleScoreCalculator.



(** [calculate]: the stub returns 0.75 whatever the weights and the input. *)
Definition calculate (self_weights input_data : gmap string float) : float :=
  0.75%float.

End SampleScoreCalculator.

End Calculators.

(** ** providers/__init__.py *)

Module Providers.

(** Modelled from the spec: the schema classes are not among the sources;
    the fields are those [provide] reads and fills in. *)
Record SampleProviderInput : Type := { data_id : Z }.

Record SampleProviderOutput : Type := {
  id : Z;
  name : string;
  value : float;
  score : float;
}.

(** [SampleDataProvider.validate_input]: the body is [pass]. *)
Definition validate_input (input_data : SampleProviderInput) : py unit :=
  Return tt.

(** The [except] clauses of [provide]: [except NotFoundException: raise],
    then [except Exception as e]. *)
Definition provide_handler (input_data : SampleProviderInput) (e : exn)
  : py SampleProviderOutput :=
  if is_not_found e then Raise e
  else
    Raise (Exn ProviderException
               ("Failed to provide data: " +:+ str_exn e)
               (Py.dict [("data_id", Py.VInt (data_id input_data))])).

(** [provide], with the method that [self.validate_input] resolves to as a
    parameter: the call is dispatched on [self], and it is the only call in
    the [try] block. *)
Definition provide_with (self_validate_input : SampleProviderInput -> py unit)
    (input_data : SampleProviderInput) : py SampleProviderOutput :=
  try_except
    (self_validate_input input_data;;
     Return {| id := data_id input_data;
               name := "Sample Data " +:+ Py.str_int (data_id input_data);
               value := 42.5%float;
               score := 0.85%float |})
    (provide_handler input_data).

(** [SampleDataProvider.provide]. *)
Definition provide : SampleProviderInput -> py SampleProviderOutput :=
  provide_with validate_input.

(** [get_multiple], with the method that [self.provide] resolves to as a
    parameter.  The list comprehension awaits one [provide] per identifier,
    from left to right; the first exception leaves it. *)
Definition get_multiple_with
    (self_provide : SampleProviderInput -> py SampleProviderOutput)
    (data_ids : list Z) : py (list SampleProviderOutput) :=
  mapM (fun data_id => self_provide {| data_id := data_id |}) data_ids.

(** [SampleDataProvider.get_multiple]. *)
Definition get_multiple : list Z -> py (list SampleProviderOutput) :=
  get_multiple_with provide.

End Providers.

(** ** The Result envelope and the Service's conversion of a failure *)

Module Service.

(** Modelled from the spec: the Result envelope ([server.app.shared]) is not
    among the sources.  Section 3 of the specification: a tagged union of
    [Success{data}] and [Failure{error, details}]. *)
Inductive Result (T : Type) : Type :=
| Success (data : T)
| Failure (error : string) (details : gmap string Py.value).
Arguments Success {T} data.
Arguments Failure {T} error details.

Definition success {T} (r : Result T) : bool :=
  match r with
  | Success _ => true
  | Failure _ _ => false
  end.

(** Modelled from the spec: [SampleDomainService.execute] is not among the
    sources.  Section 4.5 of the specification: on any propagated error the
    Service returns [Result.Failure] with that error's message and details. *)
Definition failure_of {T} (e : exn) : Result T :=
  Failure (message e) (details e).

End Service.

(** ** api/v1/endpoints/sample.py *)

Module Endpoints.

Import Service.

(** [fastapi.HTTPException(status_code=..., detail=...)]. *)
Record HTTPException : Type := {
  status_code : Z;
  detail : string;
}.

Definition HTTP_400_BAD_REQUEST : Z := 400.

(** [current_user.get("user_id") if current_user else None]: an empty dict is
    as false as [None]. *)
Definition user_id_of (current_user : option (gmap string Py.value))
  : option Py.value :=
  match current_user with
  | Some u => if bool_decide (u = ∅) then None else u !! "user_id"
  | None => None
  end.

Section AnalyzeData.

Variables SampleAnalysisRequest SampleAnalysisResponse : Type.

(** [SampleDomainService(db).execute]: the Service is not among the sources. *)
Variable execute :
  SampleAnalysisRequest -> option Py.value -> Result SampleAnalysisResponse.

(** [analyze_data]: the response model is returned, or [HTTPException] is
    raised. *)
Definition analyze_data (request : SampleAnalysisRequest)
    (current_user : option (gmap string Py.value))
  : SampleAnalysisResponse + HTTPException :=
  let user_id := user_id_of current_user in
  let result := execute request user_id in
  match result with
  | Success data => inl data
  | Failure error _ =>
      inr {| status_code := HTTP_400_BAD_REQUEST; detail := error |}
  end.

End AnalyzeData.

(** The status of the response the endpoint ends in: 200 (the route's
    [status_code]) when it returns, the exception's status when it raises. *)
Definition response_status {T} (r : T + HTTPException) : Z :=
  match r with
  | inl _ => 200
  | inr h => status_code h
  end.

(** *** The stub endpoints *)

(** The values of the stub endpoints' [dict] responses and request bodies. *)
Inductive json : Type :=
| JNone
| JInt (z : Z)
| JFloat (x : float)
| JStr (s : string)
| JList (l : list json)
| JDict (d : gmap string json).

(** Modelled from the spec: [PaginationParams]
    ([server.app.core.dependencies]) is not among the sources.  Section 6 of
    the specification: a pagination descriptor (skip, limit). *)
Record PaginationParams : Type := {
  skip : Z;
  limit : Z;
}.

(** [range(start, stop)]: empty when [stop <= start]. *)
Definition range (start stop : Z) : list Z := seqZ start (stop - start).

(** [a // b] of two [int]s: the floor of the quotient; a zero divisor raises
    [ZeroDivisionError] (the wording of its message varies with the Python
    version). *)
Definition floordiv (a b : Z) : py Z :=
  if b =? 0
  then Raise (Exn (Builtin "ZeroDivisionError")
                  "integer division or modulo by zero" ∅)
  else Return (a / b).

(** [d.get(key, default)]. *)
Definition dict_get (d : gmap string json) (key : string) (default : json)
  : json :=
  match d !! key with
  | Some v => v
  | None => default
  end.

(** [get_data]. *)
Definition get_data (data_id : Z) : gmap string json :=
  Py.dict [
    ("id", JInt data_id);
    ("name", JStr ("Sample Data " +:+ Py.str_int data_id));
    ("value", JFloat 42.5%float);
    ("score", JFloat 0.85%float)
  ].

(** One element of the list comprehension of [list_data]. *)
Definition list_item (i : Z) : gmap string json :=
  Py.dict [
    ("id", JInt i);
    ("name", JStr ("Sample Data " +:+ Py.str_int i));
    ("value", JFloat 42.5%float)
  ].

(** [list_data]: the entries of the dict display are evaluated in order, so
    the items are built before the page number is. *)
Definition list_data (pagination : PaginationParams)
  : py (gmap string json) :=
  let items :=
    (fun i => JDict (list_item i)) <$>
      range (skip pagination)
            (skip pagination + Z.min 10 (limit pagination)) in
  page ← floordiv (skip pagination) (limit pagination);
  Return (Py.dict [
    ("items", JList items);
    ("total", JInt 100);
    ("page", JInt (page + 1));
    ("page_size", JInt (limit pagination))
  ]).

(** [create_data]. *)
Definition create_data (request : gmap string json) : gmap string json :=
  Py.dict [
    ("id", JInt 999);
    ("name", dict_get request "name" (JStr "New Sample Data"));
    ("value", dict_get request "value" (JFloat 0.0%float));
    ("created_at", JStr "2024-01-01T00:00:00Z")
  ].

(** [update_data]. *)
Definition update_data (data_id : Z) (request : gmap string json)
  : gmap string json :=
  Py.dict [
    ("id", JInt data_id);
    ("name", dict_get request "name" (JStr "Updated Sample Data"));
    ("value", dict_get request "value" (JFloat 0.0%float));
    ("updated_at", JStr "2024-01-01T00:00:00Z")
  ].

End Endpoints.

(** ** main.py *)

Module Main.

(** [fastapi.responses.JSONResponse(status_code=..., content=...)]. *)
Record JSONResponse : Type := {
  status_code : Z;
  content : gmap string Py.value;
}.

Definition HTTP_500_INTERNAL_SERVER_ERROR : Z := 500.

Section ExceptionHandlers.

(** Modelled from the spec: [exc.status_code] is set by the exception classes,
    which are not among the sources.  Section 4.6 of the specification:
    [ValidationError] is 400, [NotFoundError] is 404, the others 400 or 500
    per policy; the policy is the parameter [other_status]. *)
Variable other_status : exn_class -> Z.

Definition exc_status_code (exc : exn) : Z :=
  match exn_cls exc with
  | ValidationException => 400
  | NotFoundException => 404
  | c => other_status c
  end.

(** [application_exception_handler], registered for [ApplicationException]. *)
Definition application_exception_handler (exc : exn) : JSONResponse :=
  {| status_code := exc_status_code exc;
     content := Py.dict [
       ("error", Py.VStr (message exc));
       ("details", Py.VDict (details exc))
     ] |}.

End ExceptionHandlers.

(** [type(exc).__name__]. *)
Definition type_name (exc : exn) : string :=
  match exn_cls exc with
  | NotFoundException => "NotFoundException"
  | ValidationException => "ValidationException"
  | ProviderException => "ProviderException"
  | CalculatorException => "CalculatorException"
  | ApplicationException => "ApplicationException"
  | Builtin name => name
  end.

(** [general_exception_handler], registered for [Exception]; [debug] is
    [settings.DEBUG]. *)
Definition general_exception_handler (debug : bool) (exc : exn)
  : JSONResponse :=
  if debug then
    {| status_code := HTTP_500_INTERNAL_SERVER_ERROR;
       content := Py.dict [
         ("error", Py.VStr "Internal server error");
         ("details", Py.VDict (Py.dict [
            ("type", Py.VStr (type_name exc));
            ("message", Py.VStr (str_exn exc))
          ]))
       ] |}
  else
    {| status_code := HTTP_500_INTERNAL_SERVER_ERROR;
       content := Py.dict [("error", Py.VStr "Internal server error")] |}.

End Main.

(** ** Sample inputs *)

Module Samples.

Import Calculators.

(** The inherited [validate_output] when it accepts every output. *)
Definition accept_output (_ : SampleCalculatorOutput) : py unit := Return tt.

(** A [validate_output] that rejects every output with the narrower
    validation kind. *)
Definition reject_output (_ : SampleCalculatorOutput) : py unit :=
  Raise (Exn ValidationException "Output rejected" ∅).

(** A C library whose [pow(x, 2.0)] is the correctly rounded square. *)
Definition libm_pow2 (x : float) : float := (x * x)%float.


(** A stand-in for [str] on floats where its digits do not matter. *)
Definition opaque_float_str (_ : float) : string := "<float>".

Definition statistical_plain : SampleCalculatorInput :=
  {| value := 10.0%float; score := None; threshold := None;
     analysis_type := Some "statistical" |}.

Definition statistical_over_threshold : SampleCalculatorInput :=
  {| value := 10.0%float; score := Some 0.9%float;
     threshold := Some 0.5%float; analysis_type := Some "statistical" |}.

Definition statistical_zero_threshold : SampleCalculatorInput :=
  {| value := 10.0%float; score := Some 0.5%float;
     threshold := Some 0.0%float; analysis_type := Some "statistical" |}.

Definition anomaly_with (s : float) : SampleCalculatorInput :=
  {| value := 10.0%float; score := Some s; threshold := None;
     analysis_type := Some "anomaly" |}.

Definition negative_value : SampleCalculatorInput :=
  {| value := (-1.0)%float; score := None; threshold := None;
     analysis_type := Some "trend" |}.

Definition default_no_score : SampleCalculatorInput :=
  {| value := 3.0%float; score := None; threshold := None;
     analysis_type := None |}.

(** A [validate_input] override that finds nothing for identifier 7 and
    trips over a lower-level error for identifier 13. *)
Definition picky_validate (input_data : Providers.SampleProviderInput)
  : py unit :=
  if Providers.data_id input_data =? 7
  then Raise (Exn NotFoundException "Data with id 7 not found" ∅)
  else if Providers.data_id input_data =? 13
  then Raise (Exn (Builtin "ConnectionError") "connection reset" ∅)
  else Return tt.

Definition picky_provide := Providers.provide_with picky_validate.

(** The failure the Service returns for a record that does not exist. *)
Definition missing_record : exn :=
  Exn NotFoundException "Data with id 7 not found"
      (Py.dict [("data_id", Py.VInt 7)]).

End Samples.

(** * Properties *)

(** ** The monad and dict displays *)

Lemma bind_Return_inv {A B} (m : py A) (f : A -> py B) (b : B) :
  m ≫= f = Return b -> exists a, m = Return a /\ f a = Return b.
Proof. destruct m as [a|e]; [eauto | discriminate]. Qed.

Lemma bind_Raise_inv {A B} (m : py A) (f : A -> py B) (e : exn) :
  m ≫= f = Raise e ->
  m = Raise e \/ exists a, m = Return a /\ f a = Raise e.
Proof.
  destruct m as [a|e']; intros H.
  - right. eauto.
  - left. simpl in H. by injection H as ->.
Qed.

Lemma try_except_Return_inv {A} (body : py A) h (a : A) :
  (forall e, h e <> Return a) ->
  try_except body h = Return a -> body = Return a.
Proof.
  intros Hh. destruct body as [a'|e]; simpl; [done |].
  intros H. by apply Hh in H.
Qed.

Lemma foldl_insert_non_empty {V} (items : list (string * V)) :
  forall d : gmap string V,
    d <> ∅ -> foldl (fun d kv => <[kv.1 := kv.2]> d) d items <> ∅.
Proof.
  induction items as [|kv items IH]; intros d Hd; simpl; [done |].
  apply IH, insert_non_empty.
Qed.

Lemma dict_non_empty {V} (kv : string * V) (items : list (string * V)) :
  Py.dict (kv :: items) <> ∅.
Proof.
  unfold Py.dict. simpl. apply foldl_insert_non_empty, insert_non_empty.
Qed.

(** ** Float comparisons *)

Module FloatFacts.

Lemma compare_cont_Eq_swap (p q : positive) :
  PosDef.Pos.compare_cont Eq q p = CompOpp (PosDef.Pos.compare_cont Eq p q).
Proof.
  pose proof (Pos.compare_cont_antisym p q Eq) as H. simpl in H.
  symmetry. exact H.
Qed.

Lemma SFcompare_swap x y : SFcompare y x = CompOpp <$> SFcompare x y.
Proof.
  destruct x as [sx|sx| |sx mx ex], y as [sy|sy| |sy my ey]; simpl;
    try destruct sx; try destruct sy; try reflexivity.
  all: rewrite (Z.compare_antisym ex ey), (compare_cont_Eq_swap mx my).
  all: destruct (ex ?= ey)%Z; simpl; try reflexivity.
  all: by destruct (PosDef.Pos.compare_cont Eq mx my).
Qed.

(** [x < y] excludes [y <= x]. *)
Lemma ltb_not_leb (x y : float) :
  (x <? y)%float = true -> (y <=? x)%float = false.
Proof.
  rewrite ltb_spec, leb_spec. unfold SFltb, SFleb.
  rewrite (SFcompare_swap (Prim2SF x) (Prim2SF y)).
  by destruct (SFcompare (Prim2SF x) (Prim2SF y)) as [[]|].
Qed.

(** A score below 0 or above 1 fails the test [0 <= score <= 1]. *)
Lemma below_zero_or_above_one_not_within (s : float) :
  (s <? 0)%float = true \/ (1 <? s)%float = true ->
  (0 <=? s)%float = false \/ (s <=? 1)%float = false.
Proof. intros [H|H]; [left | right]; by apply ltb_not_leb. Qed.

End FloatFacts.

(** ** The Calculator *)

Module CalculatorFacts.

Import Calculators.

Section Branches.

Variable float_str : float -> string.
Variable c_pow2 : float -> float.

Abbreviation _statistical_analysis := (_statistical_analysis c_pow2).

(** Every analysis branch that returns, returns at least one metric. *)
Lemma statistical_metrics_non_empty input m ins :
  _statistical_analysis input = Return (m, ins) -> m <> ∅.
Proof.
  unfold Calculators._statistical_analysis. intros H.
  apply bind_Return_inv in H as (variance & _ & H).
  apply bind_Return_inv in H as (mean & _ & H).
  injection H as <- _. apply dict_non_empty.
Qed.

Lemma trend_metrics_non_empty input m ins :
  _trend_analysis input = Return (m, ins) -> m <> ∅.
Proof. intros [= <- _]. apply dict_non_empty. Qed.

Lemma anomaly_metrics_non_empty input m ins :
  _anomaly_detection input = Return (m, ins) -> m <> ∅.
Proof. intros [= <- _]. apply dict_non_empty. Qed.

Lemma default_metrics_non_empty input m ins :
  _default_analysis float_str input = Return (m, ins) -> m <> ∅.
Proof. intros [= <- _]. apply dict_non_empty. Qed.

(** *** The anomaly branch *)

Lemma anomaly_flag_iff input :
  anomaly_flag input = true <->
  exists s, score input = Some s /\
            (s =? 0)%float = false /\ (s <? 0.3)%float = true.
Proof.
  unfold anomaly_flag, Py.truthy. split.
  - destruct (score input) as [s|]; [| done].
    intros [H1 H2]%andb_true_iff. exists s.
    by apply negb_true_iff in H1.
  - intros (s & -> & -> & ->). done.
Qed.

Lemma anomaly_flagged_output input :
  anomaly_flag input = true ->
  _anomaly_detection input =
    Return (Py.dict [("anomaly_score", 0.2%float); ("is_anomaly", 1.0%float);
                     ("confidence", 0.85%float)],
            ["이상치가 감지되었습니다"; "추가 검토가 필요합니다"]).
Proof. unfold _anomaly_detection. by intros ->. Qed.

Lemma anomaly_unflagged_output input :
  anomaly_flag input = false ->
  _anomaly_detection input =
    Return (Py.dict [("anomaly_score", 0.8%float); ("is_anomaly", 0.0%float);
                     ("confidence", 0.85%float)],
            ["정상 범위 내의 데이터입니다"]).
Proof. unfold _anomaly_detection. by intros ->. Qed.

Example anomaly_score_025_flagged :
  anomaly_flag (Samples.anomaly_with 0.25%float) = true.
Proof. reflexivity. Qed.

Example anomaly_score_05_unflagged :
  anomaly_flag (Samples.anomaly_with 0.5%float) = false.
Proof. reflexivity. Qed.

(** C2: a score of 0.0 is present and below the cutoff 0.3, and yet the
    anomaly branch does not flag it: [score and score < 0.3] takes the zero
    score for a missing one.  The output is the unflagged one. *)
Theorem anomaly_zero_score_unflagged v t a :
  let input := {| value := v; score := Some 0.0%float;
                  threshold := t; analysis_type := a |} in
  (0.0 <? 0.3)%float = true /\
  anomaly_flag input = false /\
  _anomaly_detection input =
    Return (Py.dict [("anomaly_score", 0.8%float); ("is_anomaly", 0.0%float);
                     ("confidence", 0.85%float)],
            ["정상 범위 내의 데이터입니다"]).
Proof. done. Qed.

(** *** The statistical branch *)

Lemma statistical_insights_length input m ins :
  _statistical_analysis input = Return (m, ins) ->
  length ins = if threshold_insight_due input then 3%nat else 2%nat.
Proof.
  unfold Calculators._statistical_analysis, threshold_insight_due. intros H.
  apply bind_Return_inv in H as (variance & _ & H).
  apply bind_Return_inv in H as (mean & _ & H).
  injection H as _ <-.
  destruct (threshold input) as [t|], (score input) as [s|]; try done.
  by destruct (Py.truthy t), (Py.truthy s), (t <? s)%float.
Qed.

Example statistical_plain_insights :
  snd <$> _statistical_analysis Samples.statistical_plain =
  Return ["데이터가 정규 분포를 따릅니다"; "평균값은 10.00입니다"].
Proof. reflexivity. Qed.

Example statistical_plain_metrics :
  (fun r => map (fun k => r.1 !! k) ["mean"; "median"; "std_dev"; "variance"])
    <$> _statistical_analysis Samples.statistical_plain =
  Return [Some 10.0%float; Some 9.5%float; Some 1.0%float; Some 1.0%float].
Proof. reflexivity. Qed.

Example statistical_over_threshold_insights :
  snd <$> _statistical_analysis Samples.statistical_over_threshold =
  Return ["데이터가 정규 분포를 따릅니다"; "평균값은 10.00입니다";
          "점수(0.90)가 임계값(0.50)을 초과합니다"].
Proof. reflexivity. Qed.

(** C5: with value 10.0, score 0.5 and threshold 0.0 both the threshold and
    the score are present and the score exceeds the threshold, and yet no
    threshold insight is appended: [if threshold and score:] takes the zero
    threshold for a missing one.  The insights list has length 2. *)
Theorem statistical_zero_threshold_no_insight :
  threshold Samples.statistical_zero_threshold = Some 0.0%float /\
  score Samples.statistical_zero_threshold = Some 0.5%float /\
  (0.0 <? 0.5)%float = true /\
  snd <$> _statistical_analysis Samples.statistical_zero_threshold =
    Return ["데이터가 정규 분포를 따릅니다"; "평균값은 10.00입니다"].
Proof. done. Qed.

(** *** The default branch *)

(** C10: the default branch returns exactly the two metrics "value" and
    "score": the value as it is, and the score as it is unless it is missing
    or zero, in which case the metric is 0.0 (it is never left out).  The
    second insight renders a missing score as N/A. *)
Theorem default_analysis_echoes_value_and_score input :
  exists m ins,
    _default_analysis float_str input = Return (m, ins) /\
    m = Py.dict [("value", value input);
                 ("score", match score input with
                           | Some s => if (s =? 0)%float then 0.0%float else s
                           | None => 0.0%float
                           end)] /\
    dom m = {["value"; "score"]} /\
    m !! "value" = Some (value input) /\
    m !! "score" = Some (match score input with
                         | Some s => if (s =? 0)%float then 0.0%float else s
                         | None => 0.0%float
                         end) /\
    ins !! 1%nat =
      Some ("점수: " +:+ match score input with
                        | Some s =>
                            if (s =? 0)%float then "N/A" else float_str s
                        | None => "N/A"
                        end) /\
    length ins = 2%nat.
Proof.
  eexists _, _. split; [reflexivity |].
  assert (Py.or_else (score input) id 0.0%float =
          match score input with
          | Some s => if (s =? 0)%float then 0.0%float else s
          | None => 0.0%float
          end) as ->.
  { unfold Py.or_else, Py.truthy.
    destruct (score input) as [s|]; [| done]. by destruct (s =? 0)%float. }
  split; [done |]. split.
  { unfold Py.dict. simpl. rewrite !dom_insert_L, dom_empty_L. set_solver. }
  split; [done |]. split; [done |]. split; [| done].
  simpl. do 2 f_equal. unfold Py.or_else, Py.truthy.
  destruct (score input) as [s|]; [| done]. by destruct (s =? 0)%float.
Qed.

End Branches.

Create HintDb branches.
#[local] Hint Resolve statistical_metrics_non_empty trend_metrics_non_empty
  anomaly_metrics_non_empty default_metrics_non_empty : branches.

Section Calculate.

Variable float_str : float -> string.
Variable validate_output : SampleCalculatorOutput -> py unit.
Variable c_pow2 : float -> float.

Abbreviation calculate := (calculate float_str validate_output c_pow2).
Abbreviation calculate_body :=
  (calculate_body float_str validate_output c_pow2).
Abbreviation _statistical_analysis := (_statistical_analysis c_pow2).

Lemma calculate_Return_inv input out :
  calculate input = Return out -> calculate_body input = Return out.
Proof. apply try_except_Return_inv. discriminate. Qed.

Lemma calculate_Raise_inv input e :
  calculate input = Raise e ->
  exists e0, calculate_body input = Raise e0 /\
             calculate_handler input e0 = Raise e.
Proof.
  unfold Calculators.calculate, try_except.
  destruct (calculate_body input) as [out|e0]; [discriminate | eauto].
Qed.

(** C7: every output that [calculate] returns, whatever the analysis kind
    (the default fallback included), has a non-empty metrics map. *)
Theorem calculate_metrics_non_empty input out :
  calculate input = Return out -> metrics out <> ∅.
Proof.
  intros H%calculate_Return_inv. unfold Calculators.calculate_body in H.
  apply bind_Return_inv in H as ([] & _ & H).
  apply bind_Return_inv in H as ([m ins] & Hbranch & H).
  apply bind_Return_inv in H as ([] & _ & H).
  injection H as <-. simpl.
  repeat case_match; eauto with branches.
Qed.

(** C4: whenever [calculate] fails, the caller receives a
    [CalculatorException] whose detail map holds the attempted analysis kind;
    its message carries the message of the exception that left the [try]
    block, whatever the class of that exception was (a validation error
    included). *)
Theorem calculate_failure_is_calculator_error input e :
  calculate input = Raise e ->
  exn_cls e = CalculatorException /\
  details e !! "analysis_type" = Some (Py.of_opt_str (analysis_type input)) /\
  exists e0, calculate_body input = Raise e0 /\
             message e = "Analysis calculation failed: " +:+ message e0.
Proof.
  intros (e0 & Hbody & [= <-])%calculate_Raise_inv. simpl.
  split; [done |]. split; [| eauto].
  unfold Py.dict. simpl. apply lookup_insert_eq.
Qed.

(** C6: an input whose value is below zero, or whose score is present and
    not within [0, 1], fails in [validate_input]; [calculate] then raises the
    [CalculatorException] built from that very error, so no analysis branch
    has run and no output (no metrics map) exists. *)
Theorem invalid_input_fails_before_dispatch input :
  (value input <? 0)%float = true \/
  (exists s, score input = Some s /\
             ((0 <=? s)%float = false \/ (s <=? 1)%float = false)) ->
  exists e0,
    validate_input input = Raise e0 /\
    exn_cls e0 = CalculatorException /\
    calculate input =
      Raise (Exn CalculatorException
                 ("Analysis calculation failed: " +:+ message e0)
                 (Py.dict [("analysis_type",
                            Py.of_opt_str (analysis_type input))])) /\
    forall out, calculate input <> Return out.
Proof.
  intros Hbad.
  assert (exists e0, validate_input input = Raise e0 /\
                     exn_cls e0 = CalculatorException) as (e0 & Hv & Hcls).
  { unfold validate_input.
    destruct Hbad as [-> | (s & -> & Hs)]; [eauto |].
    destruct (value input <? 0)%float; [eauto |].
    destruct Hs as [-> | ->]; simpl; [eauto |].
    rewrite andb_false_r. simpl. eauto. }
  assert (calculate input = calculate_handler input e0) as Hc.
  { unfold Calculators.calculate, Calculators.calculate_body.
    rewrite Hv. reflexivity. }
  exists e0. repeat split; [done | done | done |].
  intros out. rewrite Hc. discriminate.
Qed.

End Calculate.

End CalculatorFacts.

(** ** The Provider *)

Module ProviderFacts.

Import Providers.

(** The output of the stub for an identifier. *)
Lemma provide_returns input :
  provide input =
    Return {| id := data_id input;
              name := "Sample Data " +:+ Py.str_int (data_id input);
              value := 42.5%float;
              score := 0.85%float |}.
Proof. reflexivity. Qed.

(** C3: when the call in the [try] block of [provide] raises, a
    [NotFoundException] leaves [provide] as it is, and an exception of any
    other class leaves it as a [ProviderException] whose message ends in the
    original message and whose detail map holds the [data_id] looked up. *)
Theorem provide_propagates_not_found_wraps_others
    (self_validate_input : SampleProviderInput -> py unit) input e :
  self_validate_input input = Raise e ->
  (exn_cls e = NotFoundException ->
   provide_with self_validate_input input = Raise e) /\
  (exn_cls e <> NotFoundException ->
   exists e',
     provide_with self_validate_input input = Raise e' /\
     exn_cls e' = ProviderException /\
     message e' = "Failed to provide data: " +:+ message e /\
     details e' !! "data_id" = Some (Py.VInt (data_id input))).
Proof.
  intros Hraise. unfold provide_with. rewrite Hraise. simpl.
  unfold provide_handler, is_not_found. split; intros Hcls.
  - by rewrite bool_decide_eq_true_2.
  - rewrite bool_decide_eq_false_2 by done.
    eexists. split; [reflexivity |]. simpl.
    split; [done |]. split; [done |].
    unfold Py.dict. simpl. apply lookup_insert_eq.
Qed.

(** The positivity check of [validate_input] is still to be written: the
    stub accepts the identifier -1, and [provide] returns an output for it. *)
Lemma provide_accepts_non_positive_id :
  ~ (forall input, data_id input <= 0 ->
       exists e, provide input = Raise e /\ exn_cls e = ValidationException).
Proof.
  intros H. destruct (H {| data_id := -1 |}) as (e & He & _); [done |].
  discriminate He.
Qed.



(** *** The batch operation *)

Section GetMultiple.

Variable self_provide : SampleProviderInput -> py SampleProviderOutput.

Lemma get_multiple_with_cons d data_ids :
  get_multiple_with self_provide (d :: data_ids) =
    o ← self_provide {| data_id := d |};
    outs ← get_multiple_with self_provide data_ids;
    Return (o :: outs).
Proof. reflexivity. Qed.

Lemma get_multiple_pointwise data_ids :
  forall outs,
    get_multiple_with self_provide data_ids = Return outs ->
    Forall2 (fun d o => self_provide {| data_id := d |} = Return o)
            data_ids outs.
Proof.
  induction data_ids as [|d data_ids IH]; intros outs.
  - intros [= <-]. constructor.
  - rewrite get_multiple_with_cons. intros H.
    apply bind_Return_inv in H as (o & Ho & H).
    apply bind_Return_inv in H as (outs' & Houts & H).
    injection H as <-. constructor; [done | by apply IH].
Qed.

Lemma get_multiple_first_error data_ids :
  forall (i : nat) d e,
    data_ids !! i = Some d ->
    self_provide {| data_id := d |} = Raise e ->
    (forall (j : nat) d', (j < i)%nat -> data_ids !! j = Some d' ->
       returns (self_provide {| data_id := d' |})) ->
    get_multiple_with self_provide data_ids = Raise e.
Proof.
  induction data_ids as [|d0 data_ids IH]; intros i d e Hi He Hbefore.
  - done.
  - rewrite get_multiple_with_cons. destruct i as [|i]; simpl in Hi.
    + injection Hi as ->. by rewrite He.
    + destruct (Hbefore 0%nat d0) as [o ->]; [lia | done |]. simpl.
      rewrite (IH i d e Hi He); [done |].
      intros j d' Hj Hd'. apply (Hbefore (S j) d'); [lia | done].
Qed.

Lemma get_multiple_any_error data_ids :
  forall (i : nat) d e,
    data_ids !! i = Some d ->
    self_provide {| data_id := d |} = Raise e ->
    raises (get_multiple_with self_provide data_ids).
Proof.
  induction data_ids as [|d0 data_ids IH]; intros i d e Hi He.
  - done.
  - rewrite get_multiple_with_cons.
    destruct (self_provide {| data_id := d0 |}) as [o|e0] eqn:H0;
      [| by eexists].
    destruct i as [|i]; simpl in Hi; [congruence |].
    destruct (IH i d e Hi He) as [e' ->]. by eexists.
Qed.

(** C9: when the batch operation returns, the i-th output is what [provide]
    returned for the i-th identifier (so the two lists have the same length
    and order); when [provide] raises for any one identifier, the batch
    operation raises and returns no list at all, and the exception it raises
    is that of the first identifier that fails. *)
Theorem get_multiple_keeps_order_and_fails_fast data_ids :
  (forall outs,
     get_multiple_with self_provide data_ids = Return outs ->
     length outs = length data_ids /\
     forall (i : nat) d, data_ids !! i = Some d ->
       exists o, outs !! i = Some o /\
                 self_provide {| data_id := d |} = Return o) /\
  (forall (i : nat) d e,
     data_ids !! i = Some d ->
     self_provide {| data_id := d |} = Raise e ->
     raises (get_multiple_with self_provide data_ids) /\
     ((forall (j : nat) d', (j < i)%nat -> data_ids !! j = Some d' ->
         returns (self_provide {| data_id := d' |})) ->
      get_multiple_with self_provide data_ids = Raise e)).
Proof.
  split.
  - intros outs H%get_multiple_pointwise. split.
    + symmetry. by eapply Forall2_length.
    + intros i d Hd.
      destruct (Forall2_lookup_l _ _ _ _ _ H Hd) as (o & Ho & Hp). eauto.
  - intros i d e Hd He. split.
    + by eapply get_multiple_any_error.
    + by apply get_multiple_first_error with (i := i) (d := d).
Qed.

End GetMultiple.

(** With the stub [provide], the batch operation returns one echo per
    identifier, in the order of the identifiers. *)
Lemma get_multiple_ids data_ids :
  exists outs, get_multiple data_ids = Return outs /\ id <$> outs = data_ids.
Proof.
  induction data_ids as [|d data_ids (outs & IH & Hids)].
  - by exists [].
  - eexists. unfold get_multiple in *. rewrite get_multiple_with_cons.
    rewrite IH. simpl. split; [reflexivity |].
    rewrite fmap_cons. simpl. by f_equal.
Qed.

End ProviderFacts.

(** ** The boundary adapter *)

Module BoundaryFacts.

Import Service Endpoints.

(** [application_exception_handler] answers with the status of the
    exception's kind and the body [{error: message, details: details}]. *)
Lemma application_exception_handler_response other_status exc :
  Main.status_code (Main.application_exception_handler other_status exc) =
    Main.exc_status_code other_status exc /\
  Main.content (Main.application_exception_handler other_status exc) =
    Py.dict [("error", Py.VStr (message exc));
             ("details", Py.VDict (details exc))].
Proof. done. Qed.

Lemma exc_status_code_validation other_status exc :
  exn_cls exc = ValidationException ->
  Main.exc_status_code other_status exc = 400.
Proof. unfold Main.exc_status_code. by intros ->. Qed.

Lemma exc_status_code_not_found other_status exc :
  exn_cls exc = NotFoundException ->
  Main.exc_status_code other_status exc = 404.
Proof. unfold Main.exc_status_code. by intros ->. Qed.

(** Whatever [general_exception_handler] answers has status 500, and without
    [DEBUG] the body names neither the type nor the message of the
    exception. *)
Lemma general_exception_handler_response debug exc :
  Main.status_code (Main.general_exception_handler debug exc) = 500 /\
  (debug = false ->
   Main.content (Main.general_exception_handler debug exc) =
     Py.dict [("error", Py.VStr "Internal server error")]).
Proof. split; [by destruct debug | by intros ->]. Qed.

(** C1, as the specification states it, fails at [analyze_data]: the failure
    the Service returns for a [NotFoundException] is answered with status
    400, not 404. *)
Lemma not_found_failure_is_not_404 :
  ~ (forall (Request Response : Type)
            (execute : Request -> option Py.value -> Result Response)
            request current_user e,
       execute request (user_id_of current_user) = failure_of e ->
       exn_cls e = NotFoundException ->
       response_status
         (analyze_data Request Response execute request current_user) = 404).
Proof.
  intros H.
  specialize (H unit unit (fun _ _ => failure_of Samples.missing_record)
                tt None Samples.missing_record eq_refl eq_refl).
  discriminate H.
Qed.

Section AnalyzeData.

Variables Request Response : Type.
Variable execute : Request -> option Py.value -> Result Response.
Variable other_status : exn_class -> Z.

(** C1, amended: when [execute] returns the failure of an error,
    [analyze_data] raises an [HTTPException] with status 400 whose detail is
    the error message, whatever the kind of the error (for a
    [NotFoundException] too) and without the detail map.  The status looked
    up from the kind (400 for a validation error, 404 for a not-found error)
    and the body [{error: message, details: details}] are the answer of
    [application_exception_handler] to the same error when it is raised. *)
Theorem analyze_data_failure_is_400 request current_user e :
  execute request (user_id_of current_user) = failure_of e ->
  analyze_data Request Response execute request current_user =
    inr {| status_code := 400; detail := message e |} /\
  response_status
    (analyze_data Request Response execute request current_user) = 400 /\
  (exn_cls e = ValidationException ->
   Main.status_code (Main.application_exception_handler other_status e)
     = 400) /\
  (exn_cls e = NotFoundException ->
   Main.status_code (Main.application_exception_handler other_status e)
     = 404) /\
  Main.content (Main.application_exception_handler other_status e) =
    Py.dict [("error", Py.VStr (message e));
             ("details", Py.VDict (details e))].
Proof.
  intros Hexec. unfold analyze_data. rewrite Hexec. simpl.
  split; [done |]. split; [done |].
  split; [apply exc_status_code_validation |].
  split; [apply exc_status_code_not_found | done].
Qed.

(** A successful result is returned as it is. *)
Lemma analyze_data_success request current_user data :
  execute request (user_id_of current_user) = Success data ->
  analyze_data Request Response execute request current_user = inl data.
Proof. unfold analyze_data. by intros ->. Qed.

End AnalyzeData.

End BoundaryFacts.

(** ** The theorems at concrete inputs *)

Module Witnesses.

Import Calculators Samples.

(** The statistical analysis of value 10.0 with score 0.9 over threshold 0.5
    returns, and its metrics are not empty. *)
Lemma calculate_metrics_non_empty_witness :
  exists out,
    calculate opaque_float_str accept_output libm_pow2 statistical_over_threshold
      = Return out /\
    metrics out <> ∅.
Proof.
  eexists. split; [reflexivity |].
  apply (CalculatorFacts.calculate_metrics_non_empty
           opaque_float_str accept_output libm_pow2 statistical_over_threshold).
  reflexivity.
Defined.

(** An output rejected with a [ValidationException] reaches the caller as a
    [CalculatorException] that names the analysis kind. *)
Lemma calculate_failure_is_calculator_error_witness :
  exists e,
    calculate opaque_float_str reject_output libm_pow2 statistical_plain = Raise e /\
    exn_cls e = CalculatorException /\
    details e !! "analysis_type" = Some (Py.VStr "statistical") /\
    exists e0,
      calculate_body opaque_float_str reject_output libm_pow2 statistical_plain
        = Raise e0 /\
      message e = "Analysis calculation failed: " +:+ message e0.
Proof.
  eexists. split; [reflexivity |].
  apply (CalculatorFacts.calculate_failure_is_calculator_error
           opaque_float_str reject_output libm_pow2 statistical_plain).
  reflexivity.
Defined.

(** The value -1.0 fails in [validate_input]. *)
Lemma invalid_input_fails_before_dispatch_witness :
  (value negative_value <? 0)%float = true /\
  exists e0,
    validate_input negative_value = Raise e0 /\
    exn_cls e0 = CalculatorException /\
    calculate opaque_float_str accept_output libm_pow2 negative_value =
      Raise (Exn CalculatorException
                 ("Analysis calculation failed: " +:+ message e0)
                 (Py.dict [("analysis_type",
                            Py.of_opt_str (analysis_type negative_value))])) /\
    forall out,
      calculate opaque_float_str accept_output libm_pow2 negative_value <> Return out.
Proof.
  split; [reflexivity |].
  apply (CalculatorFacts.invalid_input_fails_before_dispatch
           opaque_float_str accept_output libm_pow2 negative_value).
  left. reflexivity.
Defined.

(** A lower-level error while looking up identifier 13 is wrapped; the
    missing record 7 is not. *)
Lemma provide_propagates_not_found_wraps_others_witness :
  picky_validate {| Providers.data_id := 13 |} =
    Raise (Exn (Builtin "ConnectionError") "connection reset" ∅) /\
  exists e',
    picky_provide {| Providers.data_id := 13 |} = Raise e' /\
    exn_cls e' = ProviderException /\
    message e' = "Failed to provide data: connection reset" /\
    details e' !! "data_id" = Some (Py.VInt 13).
Proof.
  split; [reflexivity |].
  apply (ProviderFacts.provide_propagates_not_found_wraps_others
           picky_validate {| Providers.data_id := 13 |}
           (Exn (Builtin "ConnectionError") "connection reset" ∅));
    [reflexivity | discriminate].
Defined.

(** In a batch of 1, 7 and 13 the first failure is the missing record 7: the
    batch raises its [NotFoundException] and returns no list. *)
Lemma get_multiple_keeps_order_and_fails_fast_witness :
  Providers.get_multiple_with picky_provide [1; 7; 13] =
    Raise (Exn NotFoundException "Data with id 7 not found" ∅).
Proof.
  apply (ProviderFacts.get_multiple_keeps_order_and_fails_fast
           picky_provide [1; 7; 13]) with (i := 1%nat) (d := 7).
  - reflexivity.
  - reflexivity.
  - intros [|j] d' Hj Hd'; [| lia].
    injection Hd' as <-. eexists. reflexivity.
Defined.

(** The failure of a missing record is answered with 400 by [analyze_data],
    while the handler of raised exceptions answers the same error with 404. *)
Lemma analyze_data_failure_is_400_witness :
  let execute (_ : unit) (_ : option Py.value) : Service.Result unit :=
    Service.failure_of missing_record in
  Endpoints.response_status
    (Endpoints.analyze_data unit unit execute tt None) = 400 /\
  Main.status_code
    (Main.application_exception_handler (fun _ => 500) missing_record) = 404.
Proof.
  intros execute.
  destruct (BoundaryFacts.analyze_data_failure_is_400
              unit unit execute (fun _ => 500) tt None missing_record
              eq_refl) as (_ & H400 & _ & H404 & _).
  split; [exact H400 | exact (H404 eq_refl)].
Defined.


End Witnesses.

(** ** More on the Calculator *)

Module CalculatorPipeline.

Import Calculators.

Lemma float_one_ne_zero : 1.0%float <> 0.0%float.
Proof.
  intros H. apply (f_equal (fun x => (x =? 0)%float)) in H.
  vm_compute in H. discriminate H.
Qed.

Lemma validate_input_Return_inv input :
  validate_input input = Return tt ->
  (value input <? 0)%float = false /\
  forall s, score input = Some s ->
    (0 <=? s)%float = true /\ (s <=? 1)%float = true.
Proof.
  unfold validate_input.
  destruct (value input <? 0)%float; [discriminate |].
  intros H. split; [done |]. intros s Hs. rewrite Hs in H.
  destruct (0 <=? s)%float, (s <=? 1)%float; done.
Qed.

Section Statistical.

Variable c_pow2 : float -> float.

Abbreviation _statistical_analysis := (_statistical_analysis c_pow2).

(** X5: when the statistical branch returns, its metrics are exactly mean,
    median, std_dev and variance; the mean is the value, the median is the
    value times 0.95, the std_dev is the value times 0.1, the variance is
    what [** 2] returns for the std_dev metric (so it is not the infinity of
    a finite std_dev whose square is out of range), and the second insight
    shows the mean with two decimals. *)
Theorem statistical_metrics_shape input m ins :
  _statistical_analysis input = Return (m, ins) ->
  dom m = {["mean"; "median"; "std_dev"; "variance"]} /\
  m !! "mean" = Some (value input) /\
  m !! "median" = Some (value input * 0.95)%float /\
  (exists sd variance,
     m !! "std_dev" = Some sd /\ sd = (value input * 0.1)%float /\
     m !! "variance" = Some variance /\
     float_pow2 c_pow2 sd = Return variance /\
     PrimFloat.is_finite sd && PrimFloat.is_infinity (sd * sd)%float
       = false) /\
  ins !! 1%nat =
    Some ("평균값은 " +:+ Py.format_2f (value input) +:+ "입니다").
Proof.
  unfold Calculators._statistical_analysis. intros H.
  apply bind_Return_inv in H as (variance & Hvar & H).
  apply bind_Return_inv in H as (mean & Hmean & H).
  injection H as <- <-. injection Hmean as <-.
  split.
  { unfold Py.dict. simpl. rewrite !dom_insert_L, dom_empty_L. set_solver. }
  split; [done |]. split; [done |]. split.
  { exists (value input * 0.1)%float, variance.
    split; [done |]. split; [done |]. split; [done |]. split; [done |].
    unfold float_pow2 in Hvar. by case_match. }
  destruct (threshold input) as [t|], (score input) as [s|]; try done.
  by destruct (Py.truthy t), (Py.truthy s), (t <? s)%float.
Qed.

(** X6: the statistical branch returns a third insight only for an input
    whose threshold and score are both present and not zero, with the score
    above the threshold; the third insight then shows both with two
    decimals. *)
Theorem threshold_insight_only_when_exceeded input m ins :
  _statistical_analysis input = Return (m, ins) ->
  (2 < length ins)%nat ->
  exists t s,
    threshold input = Some t /\ score input = Some s /\
    (t =? 0)%float = false /\ (s =? 0)%float = false /\
    (t <? s)%float = true /\
    ins !! 2%nat =
      Some ("점수(" +:+ Py.format_2f s +:+ ")가 임계값(" +:+ Py.format_2f t
            +:+ ")을 초과합니다").
Proof.
  unfold Calculators._statistical_analysis. intros H.
  apply bind_Return_inv in H as (variance & _ & H).
  apply bind_Return_inv in H as (mean & _ & H).
  injection H as _ <-.
  destruct (threshold input) as [t|], (score input) as [s|];
    try (simpl; lia).
  unfold Py.truthy.
  destruct (t =? 0)%float eqn:Ht0, (s =? 0)%float eqn:Hs0,
    (t <? s)%float eqn:Hts; simpl; try lia.
  intros _. by exists t, s.
Qed.

End Statistical.

(** X7: the anomaly branch reports [is_anomaly] 1.0 only for an input whose
    score is present, not zero and below 0.3; the anomaly score is then 0.2
    and there are two insights. *)
Theorem anomaly_reported_only_below_cutoff input m ins :
  _anomaly_detection input = Return (m, ins) ->
  m !! "is_anomaly" = Some 1.0%float ->
  (exists s, score input = Some s /\
             (s =? 0)%float = false /\ (s <? 0.3)%float = true) /\
  m !! "anomaly_score" = Some 0.2%float /\
  m !! "confidence" = Some 0.85%float /\
  length ins = 2%nat.
Proof.
  unfold _anomaly_detection. intros [= <- <-].
  destruct (anomaly_flag input) eqn:Hflag.
  - intros _. split; [by apply CalculatorFacts.anomaly_flag_iff | done].
  - intros H. exfalso. apply float_one_ne_zero.
    symmetry. by apply (inj Some).
Qed.

Section Calculate.

Variable float_str : float -> string.
Variable validate_output : SampleCalculatorOutput -> py unit.
Variable c_pow2 : float -> float.

Abbreviation calculate := (calculate float_str validate_output c_pow2).
Abbreviation calculate_body :=
  (calculate_body float_str validate_output c_pow2).
Abbreviation _statistical_analysis := (_statistical_analysis c_pow2).

(** The branch [calculate] dispatches to. *)
Lemma calculate_Return_branch input out :
  calculate input = Return out ->
  validate_input input = Return tt /\
  validate_output out = Return tt /\
  (_statistical_analysis input = Return (metrics out, insights out) \/
   _trend_analysis input = Return (metrics out, insights out) \/
   _anomaly_detection input = Return (metrics out, insights out) \/
   _default_analysis float_str input = Return (metrics out, insights out)).
Proof.
  intros H%CalculatorFacts.calculate_Return_inv.
  unfold Calculators.calculate_body in H.
  apply bind_Return_inv in H as ([] & Hv & H).
  apply bind_Return_inv in H as ([m ins] & Hbranch & H).
  apply bind_Return_inv in H as ([] & Hout & H).
  injection H as <-. simpl in *.
  split; [done |]. split; [done |].
  repeat case_match; eauto.
Qed.

(** X1: [calculate] returns only for an input that satisfies the input
    invariant: the value is not below zero and the score, when present, is
    within [0, 1]; the output it returns has passed [validate_output]. *)
Theorem calculate_returns_only_for_valid_input input out :
  calculate input = Return out ->
  (value input <? 0)%float = false /\
  (forall s, score input = Some s ->
     (0 <=? s)%float = true /\ (s <=? 1)%float = true) /\
  validate_output out = Return tt.
Proof.
  intros (Hv & Hout & _)%calculate_Return_branch.
  apply validate_input_Return_inv in Hv as [Hvalue Hscore]. done.
Qed.

(** X2: every output that [calculate] returns has at least one insight and
    at most three. *)
Theorem calculate_insights_between_one_and_three input out :
  calculate input = Return out ->
  (1 <= length (insights out) <= 3)%nat.
Proof.
  intros (_ & _ & H)%calculate_Return_branch.
  destruct H as [H | [H | [H | H]]].
  - apply CalculatorFacts.statistical_insights_length in H. rewrite H.
    case_match; lia.
  - injection H as _ <-. simpl. lia.
  - unfold _anomaly_detection in H. injection H as _ <-.
    case_match; simpl; lia.
  - injection H as _ <-. simpl. lia.
Qed.

(** X3: when the inherited [validate_output] accepts every output, a valid
    input of any kind other than "statistical" (an unrecognized or absent
    kind included) makes [calculate] return. *)
Theorem calculate_returns_for_valid_input input :
  (forall out, validate_output out = Return tt) ->
  validate_input input = Return tt ->
  analysis_type input <> Some "statistical" ->
  returns (calculate input).
Proof.
  intros Hout Hv Hkind.
  unfold Calculators.calculate, Calculators.calculate_body.
  rewrite Hv. simpl.
  assert (Py.opt_str_eqb (analysis_type input) "statistical" = false) as ->.
  { unfold Py.opt_str_eqb, Py.str_eqb.
    destruct (analysis_type input) as [k|]; [| done].
    apply bool_decide_eq_false_2. congruence. }
  repeat case_match; simpl; rewrite Hout; by eexists.
Qed.

(** X4: a valid statistical input whose std_dev (a tenth of the value) is
    finite but squares out of the float range makes [calculate] fail: the
    [OverflowError] of the variance reaches the caller as a
    [CalculatorException]. *)
Theorem calculate_statistical_overflow input :
  validate_input input = Return tt ->
  analysis_type input = Some "statistical" ->
  PrimFloat.is_finite (value input * 0.1)%float = true ->
  PrimFloat.is_infinity
    ((value input * 0.1) * (value input * 0.1))%float = true ->
  calculate input =
    Raise (Exn CalculatorException
               "Analysis calculation failed: (34, 'Numerical result out of range')"
               (Py.dict [("analysis_type", Py.VStr "statistical")])).
Proof.
  intros Hv Hkind Hfin Hinf.
  unfold Calculators.calculate, Calculators.calculate_body.
  rewrite Hv, Hkind. simpl.
  unfold Calculators._statistical_analysis, float_pow2. rewrite Hfin, Hinf. simpl.
  unfold calculate_handler. by rewrite Hkind.
Qed.

(** X8: the detail map of the exception [calculate] raises has the analysis
    kind and nothing else: the details of the exception that left the [try]
    block are not carried over. *)
Theorem calculate_failure_drops_original_details input e :
  calculate input = Raise e ->
  dom (details e) = {["analysis_type"]} /\
  forall k, k <> "analysis_type" -> details e !! k = None.
Proof.
  intros (e0 & _ & [= <-])%CalculatorFacts.calculate_Raise_inv. simpl.
  unfold Py.dict. simpl. split.
  - rewrite dom_insert_L, dom_empty_L. set_solver.
  - intros k Hk. by rewrite lookup_insert_ne.
Qed.

End Calculate.


End CalculatorPipeline.

(** ** More on the Provider *)

Module ProviderPipeline.

Import Providers.

Section Provide.

Variable self_validate_input : SampleProviderInput -> py unit.

(** X10: whatever [validate_input] raises, [provide] raises nothing but a
    [NotFoundException] (the one [validate_input] raised) or a
    [ProviderException] that names the identifier; a [ValidationException]
    in particular never leaves [provide] as such. *)
Theorem provide_raises_not_found_or_provider_error input e :
  provide_with self_validate_input input = Raise e ->
  (exn_cls e = NotFoundException /\ self_validate_input input = Raise e) \/
  (exn_cls e = ProviderException /\
   details e !! "data_id" = Some (Py.VInt (data_id input))).
Proof.
  unfold provide_with, try_except.
  destruct (self_validate_input input) as [[]|e0]; simpl; [discriminate |].
  unfold provide_handler, is_not_found. case_bool_decide as Hcls.
  - intros [= <-]. by left.
  - intros [= <-]. right. simpl. split; [done |].
    unfold Py.dict. simpl. apply lookup_insert_eq.
Qed.

(** X11: an output that [provide] returns carries the identifier it was
    asked for, in its id and in its name, and [validate_input] has accepted
    the input. *)
Theorem provide_output_echoes_identifier input o :
  provide_with self_validate_input input = Return o ->
  id o = data_id input /\
  name o = "Sample Data " +:+ Py.str_int (data_id input) /\
  self_validate_input input = Return tt.
Proof.
  unfold provide_with, try_except.
  destruct (self_validate_input input) as [[]|e0]; simpl.
  - by intros [= <-].
  - unfold provide_handler. by case_match.
Qed.

End Provide.

Section GetMultiple.

Variable self_provide : SampleProviderInput -> py SampleProviderOutput.

(** X12: the batch of two lists of identifiers, one after the other, is the
    batch of the first followed by the batch of the second: the outputs are
    concatenated, and a failure in the first list leaves the second
    untouched. *)
Theorem get_multiple_app ids1 ids2 :
  get_multiple_with self_provide (ids1 ++ ids2) =
    outs1 ← get_multiple_with self_provide ids1;
    outs2 ← get_multiple_with self_provide ids2;
    Return (outs1 ++ outs2).
Proof.
  induction ids1 as [|d ids1 IH].
  - simpl. by destruct (get_multiple_with self_provide ids2).
  - rewrite <- app_comm_cons, !ProviderFacts.get_multiple_with_cons.
    destruct (self_provide {| data_id := d |}) as [o|e]; [| done].
    simpl. rewrite IH.
    destruct (get_multiple_with self_provide ids1) as [outs1|e]; [| done].
    simpl. by destruct (get_multiple_with self_provide ids2).
Qed.

End GetMultiple.

(** X13: the batch operation of the sample Provider returns for every list of
    identifiers, repeated and non-positive identifiers included: one output
    per identifier, with the identifiers in the order given. *)
Theorem get_multiple_returns_one_output_per_id data_ids :
  exists outs,
    get_multiple data_ids = Return outs /\
    length outs = length data_ids /\
    id <$> outs = data_ids.
Proof.
  destruct (ProviderFacts.get_multiple_ids data_ids) as (outs & H & Hids).
  exists outs. split; [done |]. split; [| done].
  rewrite <- Hids. by rewrite length_fmap.
Qed.

End ProviderPipeline.

(** ** The stub endpoints and the exception handlers *)

Module EndpointFacts.

Import Endpoints.

Lemma range_length start stop :
  length (range start stop) = Z.to_nat (stop - start).
Proof. unfold range. apply length_seqZ. Qed.

Lemma range_lookup start stop (k : nat) :
  (k < Z.to_nat (stop - start))%nat ->
  range start stop !! k = Some (start + Z.of_nat k).
Proof. intros Hk. unfold range. apply lookup_seqZ. lia. Qed.

(** X14: a page size of zero makes [list_data] raise [ZeroDivisionError]
    rather than return an empty page; the error is outside the exception
    taxonomy, so the general handler answers it with status 500. *)
Theorem list_data_zero_limit pagination :
  limit pagination = 0 ->
  exists e,
    list_data pagination = Raise e /\
    exn_cls e = Builtin "ZeroDivisionError" /\
    forall debug,
      Main.status_code (Main.general_exception_handler debug e) = 500.
Proof.
  intros Hlimit. unfold list_data, floordiv. rewrite Hlimit. simpl.
  eexists. split; [reflexivity |]. split; [done |]. by intros [].
Qed.

(** X15: for a page size other than zero [list_data] returns; the items are
    the records skip, skip + 1, ... in this order, as many as the page size
    but never more than 10 (none for a negative page size), while the
    reported page size is the one asked for and the total is 100. *)
Theorem list_data_items pagination :
  limit pagination <> 0 ->
  exists r items,
    list_data pagination = Return r /\
    r !! "items" = Some (JList items) /\
    length items = Z.to_nat (Z.min 10 (limit pagination)) /\
    (length items <= 10)%nat /\
    (forall k : nat, (k < length items)%nat ->
       items !! k =
         Some (JDict (list_item (skip pagination + Z.of_nat k)))) /\
    r !! "page_size" = Some (JInt (limit pagination)) /\
    r !! "total" = Some (JInt 100).
Proof.
  intros Hlimit. unfold list_data, floordiv.
  destruct (limit pagination =? 0) eqn:E; [lia |]. simpl.
  eexists _, _. split; [reflexivity |]. split; [done |].
  rewrite length_fmap, range_length.
  replace (skip pagination + Z.min 10 (limit pagination) - skip pagination)
    with (Z.min 10 (limit pagination)) by lia.
  split; [done |]. split; [lia |]. split; [| done].
  intros k Hk. rewrite list_lookup_fmap, range_lookup by lia. done.
Qed.

(** X16: for a non-negative skip and a positive page size the page number
    that [list_data] reports is at least 1 and is the page the skip falls
    in: (page - 1) * limit <= skip < page * limit. *)
Theorem list_data_page pagination :
  0 <= skip pagination ->
  0 < limit pagination ->
  exists r page,
    list_data pagination = Return r /\
    r !! "page" = Some (JInt page) /\
    1 <= page /\
    (page - 1) * limit pagination <= skip pagination
      < page * limit pagination.
Proof.
  intros Hskip Hlimit. unfold list_data, floordiv.
  destruct (limit pagination =? 0) eqn:E; [lia |]. simpl.
  eexists _, _. split; [reflexivity |]. split; [done |].
  pose proof (Z.div_pos (skip pagination) (limit pagination) Hskip Hlimit).
  pose proof (Z.mul_div_le (skip pagination) (limit pagination) Hlimit).
  pose proof (Z.mul_succ_div_gt (skip pagination) (limit pagination) Hlimit).
  split; [lia |]. nia.
Qed.

(** X17: the single-record endpoint answers with the fields of the output
    the sample Provider returns for the same identifier, and an item of the
    list endpoint agrees with it on id, name and value. *)
Theorem get_data_agrees_with_provider data_id o :
  Providers.provide {| Providers.data_id := data_id |} = Return o ->
  get_data data_id =
    Py.dict [("id", JInt (Providers.id o));
             ("name", JStr (Providers.name o));
             ("value", JFloat (Providers.value o));
             ("score", JFloat (Providers.score o))] /\
  forall k, k <> "score" -> list_item data_id !! k = get_data data_id !! k.
Proof.
  intros [= <-]. split; [done |].
  intros k Hk. unfold list_item, get_data, Py.dict. simpl.
  by rewrite (lookup_insert_ne _ "score").
Qed.

(** X18: [update_data] takes the id from the path and [create_data] always
    answers with id 999, whatever the body says; of the body only the keys
    name and value are read (a missing one is replaced by its default), so
    two bodies that agree on them give the same answer. *)
Theorem update_and_create_read_name_and_value data_id request :
  update_data data_id request !! "id" = Some (JInt data_id) /\
  create_data request !! "id" = Some (JInt 999) /\
  (forall v, request !! "name" = Some v ->
     update_data data_id request !! "name" = Some v /\
     create_data request !! "name" = Some v) /\
  (request !! "name" = None ->
     update_data data_id request !! "name"
       = Some (JStr "Updated Sample Data") /\
     create_data request !! "name" = Some (JStr "New Sample Data")) /\
  (forall request',
     request' !! "name" = request !! "name" ->
     request' !! "value" = request !! "value" ->
     update_data data_id request' = update_data data_id request /\
     create_data request' = create_data request).
Proof.
  split; [done |]. split; [done |]. split; [| split].
  - intros v Hv. unfold update_data, create_data, dict_get. rewrite Hv. done.
  - intros Hv. unfold update_data, create_data, dict_get. rewrite Hv. done.
  - intros request' Hname Hvalue.
    unfold update_data, create_data, dict_get. by rewrite Hname, Hvalue.
Qed.

(** X19: [general_exception_handler] always answers with status 500;
    without [DEBUG] its answer is the same for every exception (neither the
    type nor the message shows), with [DEBUG] the details name both. *)
Theorem general_exception_handler_redacts exc :
  (forall debug,
     Main.status_code (Main.general_exception_handler debug exc) = 500) /\
  (forall exc',
     Main.general_exception_handler false exc
       = Main.general_exception_handler false exc') /\
  Main.content (Main.general_exception_handler false exc) !! "details"
    = None /\
  Main.content (Main.general_exception_handler true exc) !! "details" =
    Some (Py.VDict (Py.dict [("type", Py.VStr (Main.type_name exc));
                             ("message", Py.VStr (message exc))])).
Proof. split; [by intros [] | done]. Qed.

(** X20: the user id that [analyze_data] hands to [execute] is the entry
    "user_id" of the current user, if there is a current user and it has one;
    testing the user dict for emptiness first changes nothing. *)
Theorem user_id_is_lookup current_user :
  user_id_of current_user = current_user ≫= (fun u => u !! "user_id").
Proof.
  unfold user_id_of. destruct current_user as [u|]; [| done]. simpl.
  case_bool_decide as Hu; [| done]. by rewrite Hu, lookup_empty.
Qed.

End EndpointFacts.

(** ** The further theorems at concrete inputs *)

Module MoreWitnesses.

Import Calculators Samples.

Lemma statistical_metrics_shape_witness :
  exists m ins,
    _statistical_analysis libm_pow2 statistical_over_threshold
      = Return (m, ins) /\
    m !! "mean" = Some 10.0%float /\
    m !! "median" = Some (10.0 * 0.95)%float.
Proof.
  eexists _, _. split; [reflexivity |].
  destruct (CalculatorPipeline.statistical_metrics_shape
              libm_pow2 statistical_over_threshold _ _ eq_refl)
    as (_ & Hmean & Hmedian & _).
  split; [exact Hmean | exact Hmedian].
Defined.

Lemma threshold_insight_only_when_exceeded_witness :
  exists t s,
    threshold statistical_over_threshold = Some t /\
    score statistical_over_threshold = Some s /\
    (t =? 0)%float = false /\ (s =? 0)%float = false /\
    (t <? s)%float = true /\
    ["데이터가 정규 분포를 따릅니다"; "평균값은 10.00입니다";
     "점수(0.90)가 임계값(0.50)을 초과합니다"] !! 2%nat =
      Some ("점수(" +:+ Py.format_2f s +:+ ")가 임계값(" +:+ Py.format_2f t
            +:+ ")을 초과합니다").
Proof.
  apply (CalculatorPipeline.threshold_insight_only_when_exceeded
           libm_pow2 statistical_over_threshold
           (Py.dict [("mean", 10.0%float); ("median", 9.5%float);
                     ("std_dev", 1.0%float); ("variance", 1.0%float)])).
  - reflexivity.
  - simpl. lia.
Defined.

Lemma anomaly_reported_only_below_cutoff_witness :
  (exists s, score (anomaly_with 0.25%float) = Some s /\
             (s =? 0)%float = false /\ (s <? 0.3)%float = true) /\
  Py.dict [("anomaly_score", 0.2%float); ("is_anomaly", 1.0%float);
           ("confidence", 0.85%float)] !! "anomaly_score"
    = Some 0.2%float /\
  Py.dict [("anomaly_score", 0.2%float); ("is_anomaly", 1.0%float);
           ("confidence", 0.85%float)] !! "confidence"
    = Some 0.85%float /\
  length ["이상치가 감지되었습니다"; "추가 검토가 필요합니다"] = 2%nat.
Proof.
  apply (CalculatorPipeline.anomaly_reported_only_below_cutoff
           (anomaly_with 0.25%float)); reflexivity.
Defined.

Lemma calculate_returns_only_for_valid_input_witness :
  exists out,
    calculate opaque_float_str accept_output libm_pow2 (anomaly_with 0.25%float)
      = Return out /\
    (value (anomaly_with 0.25%float) <? 0)%float = false /\
    (forall s, score (anomaly_with 0.25%float) = Some s ->
       (0 <=? s)%float = true /\ (s <=? 1)%float = true) /\
    accept_output out = Return tt.
Proof.
  eexists. split; [reflexivity |].
  apply (CalculatorPipeline.calculate_returns_only_for_valid_input
           opaque_float_str accept_output libm_pow2 (anomaly_with 0.25%float)).
  reflexivity.
Defined.

Lemma calculate_insights_between_one_and_three_witness :
  exists out,
    calculate opaque_float_str accept_output libm_pow2 statistical_over_threshold
      = Return out /\
    (1 <= length (insights out) <= 3)%nat.
Proof.
  eexists. split; [reflexivity |].
  apply (CalculatorPipeline.calculate_insights_between_one_and_three
           opaque_float_str accept_output libm_pow2 statistical_over_threshold).
  reflexivity.
Defined.

Lemma calculate_returns_for_valid_input_witness :
  returns (calculate opaque_float_str accept_output libm_pow2 default_no_score).
Proof.
  apply (CalculatorPipeline.calculate_returns_for_valid_input
           opaque_float_str accept_output libm_pow2 default_no_score).
  - intros out. reflexivity.
  - reflexivity.
  - discriminate.
Defined.

Lemma calculate_statistical_overflow_witness :
  calculate opaque_float_str accept_output libm_pow2
    {| value := 1e160%float; score := None; threshold := None;
       analysis_type := Some "statistical" |} =
    Raise (Exn CalculatorException
               "Analysis calculation failed: (34, 'Numerical result out of range')"
               (Py.dict [("analysis_type", Py.VStr "statistical")])).
Proof.
  apply (CalculatorPipeline.calculate_statistical_overflow
           opaque_float_str accept_output libm_pow2
           {| value := 1e160%float; score := None; threshold := None;
              analysis_type := Some "statistical" |}); reflexivity.
Defined.

Lemma calculate_failure_drops_original_details_witness :
  exists e,
    calculate opaque_float_str accept_output libm_pow2 negative_value = Raise e /\
    dom (details e) = {["analysis_type"]} /\
    forall k, k <> "analysis_type" -> details e !! k = None.
Proof.
  eexists. split; [reflexivity |].
  apply (CalculatorPipeline.calculate_failure_drops_original_details
           opaque_float_str accept_output libm_pow2 negative_value).
  reflexivity.
Defined.

Lemma provide_raises_not_found_or_provider_error_witness :
  exists e,
    picky_provide {| Providers.data_id := 7 |} = Raise e /\
    ((exn_cls e = NotFoundException /\
      picky_validate {| Providers.data_id := 7 |} = Raise e) \/
     (exn_cls e = ProviderException /\
      details e !! "data_id" = Some (Py.VInt 7))).
Proof.
  eexists. split; [reflexivity |].
  apply (ProviderPipeline.provide_raises_not_found_or_provider_error
           picky_validate {| Providers.data_id := 7 |}).
  reflexivity.
Defined.

Lemma provide_output_echoes_identifier_witness :
  exists o,
    picky_provide {| Providers.data_id := 1 |} = Return o /\
    Providers.id o = 1 /\
    Providers.name o = "Sample Data 1" /\
    picky_validate {| Providers.data_id := 1 |} = Return tt.
Proof.
  eexists. split; [reflexivity |].
  apply (ProviderPipeline.provide_output_echoes_identifier
           picky_validate {| Providers.data_id := 1 |}).
  reflexivity.
Defined.

Lemma list_data_zero_limit_witness :
  exists e,
    Endpoints.list_data {| Endpoints.skip := 20; Endpoints.limit := 0 |}
      = Raise e /\
    exn_cls e = Builtin "ZeroDivisionError" /\
    forall debug,
      Main.status_code (Main.general_exception_handler debug e) = 500.
Proof.
  apply (EndpointFacts.list_data_zero_limit
           {| Endpoints.skip := 20; Endpoints.limit := 0 |}).
  reflexivity.
Defined.

Lemma list_data_items_witness :
  exists r items,
    Endpoints.list_data {| Endpoints.skip := 20; Endpoints.limit := 25 |}
      = Return r /\
    r !! "items" = Some (Endpoints.JList items) /\
    length items = 10%nat /\
    (length items <= 10)%nat /\
    (forall k : nat, (k < length items)%nat ->
       items !! k =
         Some (Endpoints.JDict (Endpoints.list_item (20 + Z.of_nat k)))) /\
    r !! "page_size" = Some (Endpoints.JInt 25) /\
    r !! "total" = Some (Endpoints.JInt 100).
Proof.
  apply (EndpointFacts.list_data_items
           {| Endpoints.skip := 20; Endpoints.limit := 25 |}).
  discriminate.
Defined.

Lemma list_data_page_witness :
  exists r page,
    Endpoints.list_data {| Endpoints.skip := 20; Endpoints.limit := 8 |}
      = Return r /\
    r !! "page" = Some (Endpoints.JInt page) /\
    1 <= page /\
    (page - 1) * 8 <= 20 < page * 8.
Proof.
  apply (EndpointFacts.list_data_page
           {| Endpoints.skip := 20; Endpoints.limit := 8 |}); simpl; lia.
Defined.

Lemma get_data_agrees_with_provider_witness :
  exists o,
    Providers.provide {| Providers.data_id := -4 |} = Return o /\
    Endpoints.get_data (-4) =
      Py.dict [("id", Endpoints.JInt (Providers.id o));
               ("name", Endpoints.JStr (Providers.name o));
               ("value", Endpoints.JFloat (Providers.value o));
               ("score", Endpoints.JFloat (Providers.score o))] /\
    forall k, k <> "score" ->
      Endpoints.list_item (-4) !! k = Endpoints.get_data (-4) !! k.
Proof.
  eexists. split; [reflexivity |].
  apply (EndpointFacts.get_data_agrees_with_provider (-4)).
  reflexivity.
Defined.

End MoreWitnesses.
